(** * The navigation menu of [js/template.js]

    [menu(index, relativePath)] writes an HTML list of eight links to the
    document, one [document.write] call per fragment, and marks the entry
    whose position is loosely equal ([==]) to [index] as active.

    The development has five parts: the JavaScript values and the part of
    the language the function relies on ([==] against a Number, above all),
    the function itself as a loop over its local variables and the
    document, a reader that takes the written fragments apart again, the
    call on arguments of any kind, whose conversions may throw or change
    from one to the next, and the properties of what a call writes. *)

From Stdlib Require Import ZArith List String Ascii Bool Lia.
From Stdlib Require Import Floats.SpecFloat.
Import ListNotations.

Local Open Scope string_scope.
Local Open Scope list_scope.

(** ** JavaScript values *)

Module JS.

(** A Number is an IEEE 754 binary64 value: zeros and infinities of both
    signs, NaN, and the finite values [(-1)^s * m * 2^e]. *)
Definition number : Type := spec_float.

Definition prec : Z := 53.
Definition emax : Z := 1024.

Definition NaN : number := S754_nan.
Definition Infinity : number := S754_infinity false.

(** The Number nearest to an integer (ties to even). *)
Definition Number_of_Z (z : Z) : number := binary_normalize prec emax z 0 false.

Definition Number_of_nat (n : nat) : number := Number_of_Z (Z.of_nat n).

(** Number::equal: NaN equals nothing, the two zeros are equal. *)
Definition Number_equal (x y : number) : bool := SFeqb x y.

Definition Number_lessThan (x y : number) : bool := SFltb x y.

(** A Number holds an integer: the infinities and NaN do not. *)
Definition Number_isInteger (x : number) : bool :=
  match x with
  | S754_zero _ => true
  | S754_finite _ m e =>
      match e with
      | Zneg p => Z.eqb (Z.land (Zpos m) (Z.ones (Zpos p))) 0
      | _ => true
      end
  | _ => false
  end.

(** The primitive values.  A String is a sequence of code units, here the
    ones below 256; a Symbol is known by its identity.  Objects are left
    out: comparing one runs its [valueOf] or [toString]; [Dynamic] below
    takes them in. *)
Inductive value : Type :=
  | VUndefined
  | VNull
  | VBoolean (b : bool)
  | VNumber (x : number)
  | VString (s : string)
  | VBigInt (z : Z)
  | VSymbol (id : nat).

(** *** StringToNumber *)

(** StrWhiteSpaceChar below 256: TAB, LF, VT, FF, CR, SP and NBSP. *)
Definition isStrWhiteSpaceChar (c : ascii) : bool :=
  let n := nat_of_ascii c in
  (((9 <=? n) && (n <=? 13)) || (n =? 32) || (n =? 160))%nat.

Fixpoint trimStart (s : string) : string :=
  match s with
  | String c s' => if isStrWhiteSpaceChar c then trimStart s' else s
  | EmptyString => EmptyString
  end.

Fixpoint rev_string (acc s : string) : string :=
  match s with
  | EmptyString => acc
  | String c s' => rev_string (String c acc) s'
  end.

Definition trimEnd (s : string) : string :=
  rev_string EmptyString (trimStart (rev_string EmptyString s)).

Definition trim (s : string) : string := trimEnd (trimStart s).

(** The value of a digit in a radix up to 16, letters in either case. *)
Definition digit_value (radix : Z) (c : ascii) : option Z :=
  let n := Z.of_nat (nat_of_ascii c) in
  let v :=
    (if (48 <=? n) && (n <=? 57) then n - 48
     else if (97 <=? n) && (n <=? 102) then n - 87
     else if (65 <=? n) && (n <=? 70) then n - 55
     else 16)%Z in
  if (v <? radix)%Z then Some v else None.

(** The longest run of digits at the front of [s], read in [radix] from the
    accumulator [acc]: the value, the number of digits, and the rest. *)
Fixpoint digits (radix : Z) (acc : Z) (n : nat) (s : string) : Z * nat * string :=
  match s with
  | String c s' =>
      match digit_value radix c with
      | Some v => digits radix (radix * acc + v)%Z (S n) s'
      | None => (acc, n, s)
      end
  | EmptyString => (acc, n, s)
  end.

(** NonDecimalIntegerLiteral: [0x], [0o] or [0b] in either case, then at
    least one digit and nothing else. *)
Definition nonDecimalRadix (c : ascii) : option Z :=
  match c with
  | "x"%char | "X"%char => Some 16%Z
  | "o"%char | "O"%char => Some 8%Z
  | "b"%char | "B"%char => Some 2%Z
  | _ => None
  end.

(** RoundMVResult: the Number nearest to [(-1)^s * m * 10^e] (ties to
    even), the sign kept on a zero.  The engines round every literal this
    way, also those of more than twenty significant digits. *)
Definition roundDecimal (s : bool) (m : Z) (e : Z) : number :=
  match m with
  | Zpos p =>
      match e with
      | Zneg q =>
          let '(mz, ez, lz) :=
            SFdiv_core_binary prec emax (Zpos p) 0 (Z.pow_pos 10 q) 0 in
          binary_round_aux prec emax s mz ez lz
      | _ => binary_round prec emax s (Z.to_pos (Zpos p * 10 ^ e)) 0
      end
  | _ => S754_zero s
  end.

(** ExponentPart, optional: [e] or [E], an optional sign, at least one
    digit.  [None] when an exponent indicator is there and no digits
    follow, or when anything is left over. *)
Definition exponentPart (s : string) : option Z :=
  match s with
  | EmptyString => Some 0%Z
  | String c s' =>
      if (Ascii.eqb c "e" || Ascii.eqb c "E")%bool then
        let '(neg, s'') :=
          match s' with
          | String "+" t => (false, t)
          | String "-" t => (true, t)
          | _ => (false, s')
          end in
        match digits 10 0 0 s'' with
        | (_, O, _) => None
        | (v, _, EmptyString) => Some (if neg then (- v)%Z else v)
        | _ => None
        end
      else None
  end.

(** StrUnsignedDecimalLiteral with the sign [sg] read before it. *)
Definition strUnsignedDecimalLiteral (sg : bool) (s : string) : number :=
  if String.eqb s "Infinity" then S754_infinity sg
  else
    let '(ip, ni, r) := digits 10 0 0 s in
    let '(m, nf, r') :=
      match r with
      | String "." t => digits 10 ip 0 t
      | _ => (ip, O, r)
      end in
    match ni, nf with
    | O, O => NaN
    | _, _ =>
        match exponentPart r' with
        | Some ex => roundDecimal sg m (ex - Z.of_nat nf)
        | None => NaN
        end
    end.

Definition strNumericLiteral (s : string) : number :=
  match s with
  | String "+" t => strUnsignedDecimalLiteral false t
  | String "-" t => strUnsignedDecimalLiteral true t
  | String "0" (String c t) =>
      match nonDecimalRadix c with
      | Some radix =>
          match digits radix 0 0 t with
          | (_, O, _) => NaN
          | (v, _, EmptyString) => Number_of_Z v
          | _ => NaN
          end
      | None => strUnsignedDecimalLiteral false s
      end
  | _ => strUnsignedDecimalLiteral false s
  end.

(** StringToNumber: white space is trimmed at both ends; the empty string
    is [+0]; what is not a StringNumericLiteral is NaN. *)
Definition StringToNumber (s : string) : number :=
  match trim s with
  | EmptyString => S754_zero false
  | t => strNumericLiteral t
  end.

(** *** Loose equality against a Number *)

Definition ToNumber_Boolean (b : bool) : number :=
  if b then Number_of_Z 1 else Number_of_Z 0.

(** A BigInt and a Number are equal when they are the same real number. *)
Definition BigInt_equal_Number (z : Z) (y : number) : bool :=
  match y with
  | S754_zero _ => (z =? 0)%Z
  | S754_finite s m e =>
      let v := if s then Zneg m else Zpos m in
      match e with
      | Zneg p => (z * Z.pow_pos 2 p =? v)%Z
      | _ => (z =? v * 2 ^ e)%Z
      end
  | _ => false
  end.

(** [x == y] where [y] is a Number (IsLooselyEqual): a Number is compared
    as it is, a String and a Boolean after ToNumber, a BigInt by its
    mathematical value; [undefined], [null] and a Symbol equal no Number. *)
Definition IsLooselyEqual (x : value) (y : number) : bool :=
  match x with
  | VUndefined | VNull | VSymbol _ => false
  | VBoolean b => Number_equal (ToNumber_Boolean b) y
  | VNumber n => Number_equal n y
  | VString s => Number_equal (StringToNumber s) y
  | VBigInt z => BigInt_equal_Number z y
  end.

(** [x === y] where [y] is a Number (IsStrictlyEqual): only a Number can
    be equal to it.  [menu] does not use it. *)
Definition IsStrictlyEqual (x : value) (y : number) : bool :=
  match x with
  | VNumber n => Number_equal n y
  | _ => false
  end.

End JS.

(** ** The function *)

Module Template.
Import JS.

(** The document is the sequence of the strings written to it. *)
Definition document : Type := list string.

Definition document_write (s : string) (d : document) : document := d ++ [s].

Definition quot : string := String "034" EmptyString.
Definition tab : string := String "009" EmptyString.

Definition pages_literal : list string :=
  ["index.html"; "publications.html"; "bibbase.html"; "students.html";
   "projects.html"; "teaching.html"; "service.html"; "awards.html"].

Definition titles_literal : list string :=
  ["Home"; "Publications"; "BibBase"; "Students";
   "Projects"; "Teaching"; "Service"; "Awards"].

(** [a[i]] where it is an operand of a string [+]: past the end of the
    array the element is [undefined], which [+] writes out. *)
Definition element (a : list string) (i : nat) : string :=
  nth i a "undefined".

(** The string literals of the four [document.write] calls. *)
Definition ul_open : string := "            <ul>".
Definition ul_close : string := (tab ++ tab ++ tab ++ "</ul>")%string.
Definition li_active_open : string :=
  (tab ++ tab ++ tab ++ tab ++ "<li class=" ++ quot ++ "active" ++ quot
       ++ "><a class=" ++ quot ++ "active" ++ quot ++ " href=" ++ quot)%string.
Definition li_open : string :=
  (tab ++ tab ++ tab ++ tab ++ "<li><a href=" ++ quot)%string.
Definition href_close : string := (quot ++ ">")%string.
Definition li_close : string := "</a></li>".

(** The local variables of a call, and the document it writes to. *)
Record state : Type := mkState {
  index : value;
  relativePath : string;
  pages : list string;
  titles : list string;
  i : nat;
  doc : document
}.

Definition write (s : string) (st : state) : state :=
  mkState (index st) (relativePath st) (pages st) (titles st) (i st)
          (document_write s (doc st)).

Definition set_i (n : nat) (st : state) : state :=
  mkState (index st) (relativePath st) (pages st) (titles st) n (doc st).

(** The body of the [for] loop: the [if] on [index == i] and its two
    [document.write] calls. *)
Definition loop_body (st : state) : state :=
  if IsLooselyEqual (index st) (Number_of_nat (i st)) then
    write (li_active_open ++ relativePath st ++ element (pages st) (i st)
             ++ href_close ++ element (titles st) (i st) ++ li_close)%string st
  else
    write (li_open ++ relativePath st ++ element (pages st) (i st)
             ++ href_close ++ element (titles st) (i st) ++ li_close)%string st.

(** [for (...; i < pages.length; i++) body], at most [fuel] tests of the
    condition. *)
Fixpoint for_loop (fuel : nat) (st : state) : state :=
  match fuel with
  | O => st
  | S fuel' =>
      if (i st <? List.length (pages st))%nat
      then for_loop fuel' (set_i (S (i st)) (loop_body st))
      else st
  end.

(** The whole call, from the document [d]: the final local state and
    document.  [relativePath] is a String, or [None] when the argument is
    left out or is [undefined]. *)
Definition menu_state (index : value) (relativePath : option string)
    (d : document) : state :=
  let relativePath :=
    match relativePath with Some s => s | None => EmptyString end in
  let st := mkState index relativePath pages_literal titles_literal 0 d in
  let st := write ul_open st in
  let st := for_loop (S (List.length (pages st))) (set_i 0 st) in
  write ul_close st.

(** The document after the call. *)
Definition menu (index : value) (relativePath : option string)
    (d : document) : document :=
  doc (menu_state index relativePath d).

(** What the call writes, on its own. *)
Definition menu_output (index : value) (relativePath : option string)
    : list string :=
  menu index relativePath [].

End Template.

(** ** Reading the output back *)

Module Reading.
Import JS Template.

(** [strip p s] is what follows [p] in [s], when [s] starts with [p]. *)
Fixpoint strip (p s : string) : option string :=
  match p with
  | EmptyString => Some s
  | String a p' =>
      match s with
      | String b s' => if Ascii.eqb a b then strip p' s' else None
      | EmptyString => None
      end
  end.

(** [until c s] cuts [s] at the first [c]: what is before it and what is
    after it. *)
Fixpoint until (c : ascii) (s : string) : option (string * string) :=
  match s with
  | EmptyString => None
  | String a s' =>
      if Ascii.eqb a c then Some (EmptyString, s')
      else
        match until c s' with
        | Some (u, v) => Some (String a u, v)
        | None => None
        end
  end.

Definition reverse (s : string) : string := rev_string EmptyString s.

(** A list item as the loop body puts it together. *)
Definition list_item (active : bool) (target title : string) : string :=
  ((if active then li_active_open else li_open)
     ++ target ++ href_close ++ title ++ li_close)%string.

(** What follows the opening of a list item, read from its end: the
    closing tags, the label back to the [>] that closes the link's tag,
    the quote, and before it the link target. *)
Definition read_tail (active : bool) (rest : string)
    : option (bool * string * string) :=
  match strip (reverse li_close) (reverse rest) with
  | Some r1 =>
      match until ">" r1 with
      | Some (label, r2) =>
          match strip quot r2 with
          | Some r3 => Some (active, reverse r3, reverse label)
          | None => None
          end
      | None => None
      end
  | None => None
  end.

(** A fragment read as a list item: whether it is marked active (the item
    and its link both carry the class), the link target and the label.
    [None] for a fragment that is no list item. *)
Definition read_item (frag : string) : option (bool * string * string) :=
  match strip li_active_open frag with
  | Some rest => read_tail true rest
  | None =>
      match strip li_open frag with
      | Some rest => read_tail false rest
      | None => None
      end
  end.

(** The list items of an output, in the order written. *)
Fixpoint items (out : list string) : list (bool * string * string) :=
  match out with
  | [] => []
  | frag :: out' =>
      match read_item frag with
      | Some it => it :: items out'
      | None => items out'
      end
  end.

Definition is_active (it : bool * string * string) : bool := fst (fst it).
Definition target (it : bool * string * string) : string := snd (fst it).
Definition label (it : bool * string * string) : string := snd it.

(** The positions, counted from [n], of the items marked active. *)
Fixpoint active_from (n : nat) (l : list (bool * string * string)) : list nat :=
  match l with
  | [] => []
  | it :: l' =>
      if is_active it then n :: active_from (S n) l' else active_from (S n) l'
  end.

Definition active_positions (out : list string) : list nat :=
  active_from 0 (items out).

(** How many times a fragment occurs in an output. *)
Definition occurrences (s : string) (out : list string) : nat :=
  List.length (filter (String.eqb s) out).

Definition no_gt (s : string) : bool :=
  match until ">" s with Some _ => false | None => true end.

(** The list item of row [k] in a state. *)
Definition row (st : state) (k : nat) : string :=
  list_item (IsLooselyEqual (index st) (Number_of_nat k))
            (relativePath st ++ element (pages st) k)
            (element (titles st) k).

(** The prefix a call works with. *)
Definition prefix_of (relativePath : option string) : string :=
  match relativePath with Some s => s | None => EmptyString end.

(** The list item of row [k] of the table in a call. *)
Definition menu_row (index : value) (relativePath : option string) (k : nat)
    : string :=
  list_item (IsLooselyEqual index (Number_of_nat k))
            (prefix_of relativePath ++ element pages_literal k)
            (element titles_literal k).

(** Row [k] of the table in a call as a list item reads: marked active
    when [index == k], the link target, the label. *)
Definition menu_entry (index : value) (relativePath : option string) (k : nat)
    : bool * string * string :=
  (IsLooselyEqual index (Number_of_nat k),
   (prefix_of relativePath ++ element pages_literal k)%string,
   element titles_literal k).

(** The end of both openings of a list item: the [href] attribute up to
    its opening quote. *)
Definition href_attr : string := ("href=" ++ quot)%string.

(** A Number that is none of 0, ..., 7: NaN, below 0 (also [-Infinity]),
    above 7 (also [Infinity]), or no integer. *)
Definition Number_outside (x : number) : Prop :=
  x = NaN \/
  Number_lessThan x (Number_of_Z 0) = true \/
  Number_lessThan (Number_of_Z 7) x = true \/
  Number_isInteger x = false.

(** An index outside 0..7: [undefined], [null], a Symbol, a Number that is
    none of 0, ..., 7, a String that converts to such a Number, a BigInt
    below 0 or above 7.  A Boolean converts to 0 or 1. *)
Definition outside_0_7 (v : value) : Prop :=
  match v with
  | VUndefined | VNull | VSymbol _ => True
  | VBoolean _ => False
  | VNumber x => Number_outside x
  | VString s => Number_outside (StringToNumber s)
  | VBigInt z => (z < 0 \/ 7 < z)%Z
  end.

(** The Number of an index, if it has one, is a value of the format. *)
Definition value_valid (v : value) : Prop :=
  match v with
  | VNumber x => valid_binary prec emax x = true
  | VString s => valid_binary prec emax (StringToNumber s) = true
  | _ => True
  end.

End Reading.

(** ** The link as a browser delimits it *)

Module Attribute.
Import JS Template Reading.

(** The value of the [href] attribute of a list item as its quotes
    delimit it: what follows the opening, up to the next quote. *)
Definition href_value (frag : string) : option string :=
  match strip li_active_open frag with
  | Some rest => option_map fst (until "034" rest)
  | None =>
      match strip li_open frag with
      | Some rest => option_map fst (until "034" rest)
      | None => None
      end
  end.

Definition no_quote (s : string) : bool :=
  match until "034" s with Some _ => false | None => true end.

(** A String of StrWhiteSpaceChar only; the empty String is one. *)
Fixpoint all_white_space (s : string) : bool :=
  match s with
  | EmptyString => true
  | String c s' => isStrWhiteSpaceChar c && all_white_space s'
  end.

End Attribute.

(** ** The call on arguments of any kind *)

Module Dynamic.
Import JS Template Reading.

(** The index argument of a call: a primitive value, or an object.  An
    object is known by what its conversions to a primitive give, the
    first, the second and so on since it was made: a primitive, or [None]
    when the conversion throws (no [valueOf] or [toString] that gives a
    primitive, or one that throws).  A conversion is taken to leave the
    document alone. *)
Inductive index_argument : Type :=
  | IPrimitive (v : value)
  | IObject (toPrimitive : nat -> option value).

(** The [relativePath] argument: left out or [undefined]; a String; a
    Symbol, which [+] cannot convert to a String; or any other value,
    known by what its conversions to a String give, one after the other
    (a Number, a Boolean, [null] and a BigInt give the same String every
    time, an object what its methods give), [None] when the conversion
    throws. *)
Inductive prefix_argument : Type :=
  | PUndefined
  | PString (s : string)
  | PSymbol (id : nat)
  | PConverted (toString : nat -> option string).

(** What lives on between calls: the document, and how many conversions
    the index and the prefix have gone through.  The two arguments are
    taken to be different objects. *)
Record world : Type := mkWorld {
  written : document;
  index_conversions : nat;
  prefix_conversions : nat
}.

(** How a call, a loop or a loop body ends. *)
Inductive completion : Type := Normal | Throw.

Definition write_world (s : string) (w : world) : world :=
  mkWorld (document_write s (written w)) (index_conversions w)
          (prefix_conversions w).

(** [index == i]: an object is converted to a primitive first. *)
Definition equals_position (a : index_argument) (k : nat) (w : world)
    : option bool * world :=
  match a with
  | IPrimitive v => (Some (IsLooselyEqual v (Number_of_nat k)), w)
  | IObject toPrimitive =>
      (option_map (fun v => IsLooselyEqual v (Number_of_nat k))
                  (toPrimitive (index_conversions w)),
       mkWorld (written w) (S (index_conversions w)) (prefix_conversions w))
  end.

(** [relativePath] as the operand of the string [+]. *)
Definition prefix_text (p : prefix_argument) (w : world)
    : option string * world :=
  match p with
  | PUndefined => (Some "undefined", w)
  | PString s => (Some s, w)
  | PSymbol _ => (None, w)
  | PConverted toString =>
      (toString (prefix_conversions w),
       mkWorld (written w) (index_conversions w) (S (prefix_conversions w)))
  end.

(** The body of the loop: the comparison, then the argument of
    [document.write], then the write; an exception ends it where it is
    thrown. *)
Definition loop_body_any (a : index_argument) (p : prefix_argument)
    (pages titles : list string) (i : nat) (w : world) : completion * world :=
  match equals_position a i w with
  | (None, w1) => (Throw, w1)
  | (Some b, w1) =>
      match prefix_text p w1 with
      | (None, w2) => (Throw, w2)
      | (Some s, w2) =>
          if b then
            (Normal,
             write_world (li_active_open ++ s ++ element pages i
                            ++ href_close ++ element titles i ++ li_close)%string
                         w2)
          else
            (Normal,
             write_world (li_open ++ s ++ element pages i
                            ++ href_close ++ element titles i ++ li_close)%string
                         w2)
      end
  end.

(** The loop, at most [fuel] tests of its condition; an exception in the
    body ends it. *)
Fixpoint for_loop_any (fuel : nat) (a : index_argument) (p : prefix_argument)
    (pages titles : list string) (i : nat) (w : world)
    : completion * nat * world :=
  match fuel with
  | O => (Normal, i, w)
  | S fuel' =>
      if (i <? List.length pages)%nat then
        match loop_body_any a p pages titles i w with
        | (Normal, w') => for_loop_any fuel' a p pages titles (S i) w'
        | (Throw, w') => (Throw, i, w')
        end
      else (Normal, i, w)
  end.

(** The whole call: how it ends, and the world after it. *)
Definition menu_call (a : index_argument) (p : prefix_argument) (w : world)
    : completion * world :=
  let relativePath :=
    match p with PUndefined => PString EmptyString | _ => p end in
  let pages := pages_literal in
  let titles := titles_literal in
  let w := write_world ul_open w in
  match for_loop_any (S (List.length pages)) a relativePath pages titles 0 w with
  | (Normal, _, w') => (Normal, write_world ul_close w')
  | (Throw, _, w') => (Throw, w')
  end.

(** What a call writes: the document after it, less what was there. *)
Definition call_output (a : index_argument) (p : prefix_argument) (w : world)
    : list string :=
  skipn (List.length (written w)) (written (snd (menu_call a p w))).

(** A String or no prefix as an argument. *)
Definition prefix_argument_of (relativePath : option string) : prefix_argument :=
  match relativePath with Some s => PString s | None => PUndefined end.



(** Arguments whose conversions give the same every time: every
    primitive index, and a prefix that is left out, a String or a Symbol,
    among them. *)
Definition index_stateless (a : index_argument) : Prop :=
  match a with
  | IPrimitive _ => True
  | IObject toPrimitive => forall n m, toPrimitive n = toPrimitive m
  end.

Definition prefix_stateless (p : prefix_argument) : Prop :=
  match p with
  | PConverted toString => forall n m, toString n = toString m
  | _ => True
  end.

(** A world that holds the document [d] only. *)
Definition world_of (d : document) : world := mkWorld d 0 0.


(** An object whose [valueOf] counts its calls: 0, 1, 2, ... *)
Definition counting_object : index_argument :=
  IObject (fun n => Some (VNumber (Number_of_nat n))).

End Dynamic.

(** ** Strings *)

Section StringFacts.
Import JS Reading.

Lemma append_assoc (a b c : string) :
  ((a ++ b) ++ c)%string = (a ++ b ++ c)%string.
Proof. induction a as [|x a IH]; simpl; [reflexivity | now rewrite IH]. Qed.

Lemma append_empty_r (a : string) : (a ++ EmptyString)%string = a.
Proof. induction a as [|x a IH]; simpl; [reflexivity | now rewrite IH]. Qed.

Lemma rev_string_append (a b acc : string) :
  rev_string acc (a ++ b) = rev_string (rev_string acc a) b.
Proof.
  revert acc; induction a as [|x a IH]; intros acc; simpl; [reflexivity | apply IH].
Qed.

Lemma rev_string_acc (s acc : string) :
  rev_string acc s = (rev_string EmptyString s ++ acc)%string.
Proof.
  revert acc; induction s as [|x s IH]; intros acc; simpl; [reflexivity |].
  rewrite (IH (String x acc)), (IH (String x EmptyString)), append_assoc. reflexivity.
Qed.

Lemma reverse_append (a b : string) :
  reverse (a ++ b) = (reverse b ++ reverse a)%string.
Proof.
  unfold reverse. rewrite rev_string_append. apply rev_string_acc.
Qed.

Lemma rev_string_twice (s a b : string) :
  rev_string a (rev_string b s) = rev_string (s ++ a) b.
Proof.
  revert b; induction s as [|x s IH]; intros b; simpl; [reflexivity |].
  rewrite IH. reflexivity.
Qed.

Lemma reverse_involutive (s : string) : reverse (reverse s) = s.
Proof.
  unfold reverse. rewrite rev_string_twice. simpl. apply append_empty_r.
Qed.

Lemma strip_append (p s : string) : strip p (p ++ s) = Some s.
Proof.
  induction p as [|x p IH]; simpl; [reflexivity |].
  rewrite Ascii.eqb_refl. exact IH.
Qed.

Lemma until_append (c : ascii) (u v : string) :
  until c u = None -> until c (u ++ String c v) = Some (u, v).
Proof.
  induction u as [|x u IH]; simpl.
  - intros _. rewrite Ascii.eqb_refl. reflexivity.
  - destruct (Ascii.eqb x c); [discriminate |].
    destruct (until c u) as [[u' v']|]; [discriminate |].
    intros _. rewrite IH; reflexivity.
Qed.

Lemma until_none_append_r (c : ascii) (u v : string) :
  until c u = None -> until c v = None -> until c (u ++ v) = None.
Proof.
  intros Hu Hv. induction u as [|x u IH]; simpl in *; [exact Hv |].
  destruct (Ascii.eqb x c); [discriminate |].
  destruct (until c u) as [[u' v']|]; [discriminate |].
  rewrite IH; reflexivity.
Qed.

Lemma until_none_reverse (c : ascii) (s : string) :
  until c s = None -> until c (reverse s) = None.
Proof.
  induction s as [|x s IH]; [reflexivity |].
  intros H. change (String x s) with (String x EmptyString ++ s)%string.
  rewrite reverse_append. simpl in H.
  destruct (Ascii.eqb x c) eqn:E; [discriminate |].
  destruct (until c s) as [[u' v']|]; [discriminate |].
  apply until_none_append_r; [apply IH; reflexivity |].
  unfold reverse; simpl. rewrite E. reflexivity.
Qed.

End StringFacts.

(** ** Reading a list item gives back its parts *)

Section ReadingFacts.
Import JS Template Reading.

Lemma read_tail_parts (a : bool) (tg title : string) :
  no_gt title = true ->
  read_tail a (tg ++ href_close ++ title ++ li_close)
  = Some (a, tg, title).
Proof.
  intros H. unfold read_tail.
  rewrite !reverse_append, !append_assoc, strip_append.
  assert (Hr : until ">" (reverse title) = None).
  { apply until_none_reverse. unfold no_gt in H.
    destruct (until ">" title); [discriminate | reflexivity]. }
  change (reverse href_close) with (String ">" quot).
  change (String ">" quot ++ reverse tg)%string
    with (String ">" (quot ++ reverse tg)).
  rewrite (until_append _ _ _ Hr), strip_append, !reverse_involutive.
  reflexivity.
Qed.

Lemma strip_active_inactive (s : string) :
  strip li_active_open (li_open ++ s) = None.
Proof. reflexivity. Qed.

Lemma read_item_list_item (a : bool) (tg title : string) :
  no_gt title = true ->
  read_item (list_item a tg title) = Some (a, tg, title).
Proof.
  intros H. unfold read_item, list_item. destruct a.
  - rewrite strip_append. apply read_tail_parts, H.
  - rewrite strip_active_inactive, strip_append. apply read_tail_parts, H.
Qed.

Lemma read_item_ul_open : read_item ul_open = None.
Proof. reflexivity. Qed.

Lemma read_item_ul_close : read_item ul_close = None.
Proof. reflexivity. Qed.

Lemma items_app (l1 l2 : list string) :
  items (l1 ++ l2) = items l1 ++ items l2.
Proof.
  induction l1 as [|f l1 IH]; simpl; [reflexivity |].
  destruct (read_item f); simpl; now rewrite IH.
Qed.

Lemma list_item_not_ul_open (a : bool) (tg title : string) :
  String.eqb ul_open (list_item a tg title) = false.
Proof. destruct a; reflexivity. Qed.

Lemma list_item_not_ul_close (a : bool) (tg title : string) :
  String.eqb ul_close (list_item a tg title) = false.
Proof. destruct a; reflexivity. Qed.

End ReadingFacts.

(** ** The loop *)

Section LoopFacts.
Import JS Template Reading.

Lemma loop_body_row (st : state) :
  loop_body st = write (row st (i st)) st.
Proof.
  unfold loop_body, row, list_item.
  destruct (IsLooselyEqual (index st) (Number_of_nat (i st)));
    rewrite !append_assoc; reflexivity.
Qed.

(** The loop changes nothing but [i] and the document. *)
Lemma for_loop_frame (fuel : nat) (st : state) :
  index (for_loop fuel st) = index st /\
  relativePath (for_loop fuel st) = relativePath st /\
  pages (for_loop fuel st) = pages st /\
  titles (for_loop fuel st) = titles st.
Proof.
  revert st; induction fuel as [|fuel IH]; intros st; simpl; [tauto |].
  destruct (i st <? List.length (pages st))%nat; [| tauto].
  destruct (IH (set_i (S (i st)) (loop_body st))) as (H1 & H2 & H3 & H4).
  rewrite H1, H2, H3, H4, loop_body_row. simpl. tauto.
Qed.

(** With enough fuel the loop stops on its condition, having written the
    rows from [i] on, in order. *)
Lemma for_loop_rows (fuel : nat) (st : state) :
  List.length (pages st) - i st < fuel ->
  i st <= List.length (pages st) ->
  i (for_loop fuel st) = List.length (pages st) /\
  doc (for_loop fuel st)
  = doc st ++ map (row st) (seq (i st) (List.length (pages st) - i st)).
Proof.
  revert st; induction fuel as [|fuel IH]; intros st Hf Hi; [lia |].
  simpl. destruct (i st <? List.length (pages st))%nat eqn:E.
  - apply Nat.ltb_lt in E.
    destruct (IH (set_i (S (i st)) (loop_body st))) as [Hn Hd];
      rewrite ?loop_body_row; simpl; try lia.
    rewrite loop_body_row in Hn, Hd. simpl in Hn, Hd.
    split; [exact Hn |]. rewrite Hd.
    replace (List.length (pages st) - i st)
      with (S (List.length (pages st) - S (i st))) by lia.
    simpl. unfold document_write. rewrite <- app_assoc. reflexivity.
  - apply Nat.ltb_ge in E.
    replace (List.length (pages st) - i st) with 0 by lia.
    simpl. rewrite app_nil_r. split; [lia | reflexivity].
Qed.

(** More fuel than the loop needs changes nothing. *)
Lemma for_loop_fuel (fuel fuel' : nat) (st : state) :
  List.length (pages st) - i st < fuel ->
  List.length (pages st) - i st < fuel' ->
  for_loop fuel st = for_loop fuel' st.
Proof.
  revert fuel' st; induction fuel as [|fuel IH]; intros fuel' st Hf Hf'; [lia |].
  destruct fuel' as [|fuel']; [lia |]. simpl.
  destruct (i st <? List.length (pages st))%nat eqn:E; [| reflexivity].
  apply Nat.ltb_lt in E.
  apply IH; rewrite loop_body_row; simpl; lia.
Qed.

End LoopFacts.

(** ** Numbers *)

Section NumberFacts.
Import JS Template Reading.

Lemma Number_equal_finite (x : number) (m : positive) (e : Z) :
  Number_equal x (S754_finite false m e) = true ->
  x = S754_finite false m e.
Proof.
  unfold Number_equal, SFeqb.
  destruct x as [s|s| |s m' e']; simpl; try discriminate;
    try (destruct s; discriminate).
  destruct s; [discriminate |].
  destruct (Z.compare e' e) eqn:E; try discriminate.
  destruct (Pos.compare_cont Eq m' m) eqn:M; try discriminate.
  intros _. apply Z.compare_eq in E. apply Pos.compare_eq in M.
  now subst.
Qed.

Lemma Number_equal_zero (x : number) (s : bool) :
  Number_equal x (S754_zero s) = true -> exists s', x = S754_zero s'.
Proof.
  unfold Number_equal, SFeqb.
  destruct x as [s'|s'| |s' m' e']; simpl; try discriminate;
    try (destruct s'; discriminate).
  intros _. now exists s'.
Qed.

(** A Number equal to one of 0, ..., 7 is that Number, or is [-0]. *)
Lemma Number_equal_in_range (x : number) (k : nat) :
  k < 8 -> Number_equal x (Number_of_nat k) = true ->
  x = S754_zero true \/ x = Number_of_nat k.
Proof.
  intros Hk H.
  destruct k as [|[|[|[|[|[|[|[|k]]]]]]]]; try lia.
  1: { apply Number_equal_zero in H. destruct H as [[|] ->]; [now left | now right]. }
  all: right; apply Number_equal_finite; exact H.
Qed.

Lemma Number_of_nat_inj (j k : nat) :
  j < 8 -> k < 8 -> Number_equal (Number_of_nat j) (Number_of_nat k) = true ->
  j = k.
Proof.
  intros Hj Hk.
  destruct j as [|[|[|[|[|[|[|[|j]]]]]]]]; try lia;
    destruct k as [|[|[|[|[|[|[|[|k]]]]]]]]; try lia;
    solve [reflexivity | vm_compute; discriminate].
Qed.

(** A Number is equal to at most one of 0, ..., 7. *)
Lemma Number_equal_unique (x : number) (j k : nat) :
  j < 8 -> k < 8 ->
  Number_equal x (Number_of_nat j) = true ->
  Number_equal x (Number_of_nat k) = true ->
  j = k.
Proof.
  intros Hj Hk H1 H2.
  destruct (Number_equal_in_range x j Hj H1) as [-> | ->].
  - destruct j as [|[|[|[|[|[|[|[|j]]]]]]]]; try lia;
      destruct k as [|[|[|[|[|[|[|[|k]]]]]]]]; try lia;
      solve [reflexivity | vm_compute in H1; discriminate
            | vm_compute in H2; discriminate].
  - apply Number_of_nat_inj; assumption.
Qed.

(** A Number outside 0..7 is equal to none of 0, ..., 7. *)
Lemma Number_outside_not_equal (x : number) (k : nat) :
  Number_outside x -> k < 8 -> Number_equal x (Number_of_nat k) = false.
Proof.
  intros Ho Hk. destruct (Number_equal x (Number_of_nat k)) eqn:E; [| reflexivity].
  exfalso.
  destruct (Number_equal_in_range x k Hk E) as [-> | ->];
    destruct Ho as [H | [H | [H | H]]];
    try discriminate H;
    destruct k as [|[|[|[|[|[|[|[|k]]]]]]]]; try lia;
    vm_compute in H; discriminate H.
Qed.

Lemma BigInt_equal_nat (z : Z) (k : nat) :
  k < 8 -> BigInt_equal_Number z (Number_of_nat k) = (z =? Z.of_nat k)%Z.
Proof.
  intros Hk.
  destruct k as [|[|[|[|[|[|[|[|k]]]]]]]]; try lia;
    [reflexivity | ..];
    match goal with
    | |- BigInt_equal_Number _ ?n = _ =>
        let n' := eval vm_compute in n in change n with n'
    end;
    unfold BigInt_equal_Number;
    match goal with
    | |- context [Z.pow_pos ?a ?b] =>
        let n' := eval vm_compute in (Z.pow_pos a b) in
        change (Z.pow_pos a b) with n'
    end;
    match goal with
    | |- (?a =? ?b)%Z = (?c =? ?d)%Z =>
        destruct (Z.eqb_spec a b), (Z.eqb_spec c d); try reflexivity; lia
    end.
Qed.

(** The loose comparison matches at most one position. *)
Lemma IsLooselyEqual_unique (v : value) (j k : nat) :
  j < 8 -> k < 8 ->
  IsLooselyEqual v (Number_of_nat j) = true ->
  IsLooselyEqual v (Number_of_nat k) = true ->
  j = k.
Proof.
  intros Hj Hk. destruct v as [| |b|x|s|z|id]; simpl; try discriminate.
  - apply Number_equal_unique; assumption.
  - apply Number_equal_unique; assumption.
  - apply Number_equal_unique; assumption.
  - rewrite !BigInt_equal_nat by assumption.
    intros H1 H2. apply Z.eqb_eq in H1, H2. lia.
Qed.

(** An index outside 0..7 matches no position. *)
Lemma outside_no_match (v : value) (k : nat) :
  outside_0_7 v -> k < 8 -> IsLooselyEqual v (Number_of_nat k) = false.
Proof.
  intros Ho Hk. destruct v as [| |b|x|s|z|id]; simpl in *; try reflexivity.
  - contradiction.
  - apply Number_outside_not_equal; assumption.
  - apply Number_outside_not_equal; assumption.
  - rewrite BigInt_equal_nat by assumption. apply Z.eqb_neq. lia.
Qed.

Lemma digits2_pos_bounds (m : positive) :
  (2 ^ (Zpos (digits2_pos m) - 1) <= Zpos m < 2 ^ Zpos (digits2_pos m))%Z.
Proof.
  induction m as [m IH | m IH |]; cbn [digits2_pos].
  - rewrite Pos2Z.inj_succ.
    replace (Z.succ (Zpos (digits2_pos m)) - 1)%Z
      with (Z.succ (Zpos (digits2_pos m) - 1))%Z by lia.
    rewrite !Z.pow_succ_r by lia. lia.
  - rewrite Pos2Z.inj_succ.
    replace (Z.succ (Zpos (digits2_pos m)) - 1)%Z
      with (Z.succ (Zpos (digits2_pos m) - 1))%Z by lia.
    rewrite !Z.pow_succ_r by lia. lia.
  - simpl. lia.
Qed.

(** A finite Number's exponent and the size of its mantissa. *)
Lemma bounded_digits (m : positive) (e : Z) :
  bounded prec emax m e = true ->
  (-1074 <= e <= 971)%Z /\
  (Zpos (digits2_pos m) <= 53)%Z /\
  ((-1074 < e)%Z -> Zpos (digits2_pos m) = 53%Z).
Proof.
  unfold bounded, canonical_mantissa, fexp, emin, prec, emax.
  intros H. apply andb_prop in H. destruct H as [H1 H2].
  apply Z.eqb_eq in H1. apply Z.leb_le in H2. lia.
Qed.

Lemma Number_lessThan_finite (m1 m2 : positive) (e1 e2 : Z) :
  (e1 < e2 \/ (e1 = e2 /\ Zpos m1 < Zpos m2))%Z ->
  Number_lessThan (S754_finite false m1 e1) (S754_finite false m2 e2) = true.
Proof.
  unfold Number_lessThan, SFltb, SFcompare. intros [H | [-> H]].
  - apply Z.compare_lt_iff in H. rewrite H. reflexivity.
  - rewrite Z.compare_refl.
    change (Pos.compare_cont Eq m1 m2) with (Pos.compare m1 m2).
    apply Pos.compare_lt_iff in H. rewrite H. reflexivity.
Qed.

Lemma not_integer (m : positive) (p : positive) :
  (Zpos m mod 2 ^ Zpos p <> 0)%Z ->
  Number_isInteger (S754_finite false m (Zneg p)) = false.
Proof.
  intros H. unfold Number_isInteger.
  rewrite Z.land_ones by lia. apply Z.eqb_neq. exact H.
Qed.

Lemma Number_in_or_outside (x : number) :
  valid_binary prec emax x = true ->
  (exists k, k < 8 /\ Number_equal x (Number_of_nat k) = true) \/
  Number_outside x.
Proof.
  destruct x as [s|s| |s m e]; intros Hv.
  - left. exists 0. split; [lia | reflexivity].
  - right. destruct s; [right; left | right; right; left]; reflexivity.
  - right. left. reflexivity.
  - destruct s; [right; right; left; reflexivity |].
    simpl in Hv. apply bounded_digits in Hv. destruct Hv as (He & Hd & Hn).
    pose proof (digits2_pos_bounds m) as Hb.
    destruct (Z_lt_le_dec (-50) e) as [H50 | H50].
    { right. right. right. left.
      change (Number_of_Z 7) with (S754_finite false 7881299347898368 (-50)).
      apply Number_lessThan_finite. left. exact H50. }
    destruct (Z_lt_le_dec e (-52)) as [H52 | H52].
    { right. right. right. right.
      destruct e as [|p|p]; try lia.
      apply not_integer.
      assert (Zpos m < 2 ^ Zpos p)%Z.
      { apply Z.lt_le_trans with (2 ^ 53)%Z.
        - apply Z.lt_le_trans with (2 ^ Zpos (digits2_pos m))%Z; [lia |].
          apply Z.pow_le_mono_r; lia.
        - apply Z.pow_le_mono_r; lia. }
      rewrite Z.mod_small; lia. }
    rewrite Hn in Hb by lia.
    change (2 ^ (53 - 1))%Z with 4503599627370496%Z in Hb.
    change (2 ^ 53)%Z with 9007199254740992%Z in Hb.
    assert (E : (e = -50 \/ e = -51 \/ e = -52)%Z) by lia.
    destruct E as [-> | [-> | ->]].
    + destruct (Z_lt_le_dec 7881299347898368 (Zpos m)) as [Hm | Hm].
      { right. right. right. left.
        change (Number_of_Z 7) with (S754_finite false 7881299347898368 (-50)).
        apply Number_lessThan_finite. right. split; [reflexivity | exact Hm]. }
      destruct (Z.eq_dec (Zpos m mod 2 ^ 50) 0) as [Hz | Hz].
      * left.
        pose proof (Z.div_mod (Zpos m) (2 ^ 50) ltac:(lia)) as Hq.
        rewrite Hz in Hq.
        change (2 ^ 50)%Z with 1125899906842624%Z in Hq.
        assert (Hc : (Zpos m / 1125899906842624 = 4 \/
                      Zpos m / 1125899906842624 = 5 \/
                      Zpos m / 1125899906842624 = 6 \/
                      Zpos m / 1125899906842624 = 7)%Z) by lia.
        destruct Hc as [Hc | [Hc | [Hc | Hc]]]; rewrite Hc in Hq;
          simpl in Hq; injection Hq as ->;
          [exists 4 | exists 5 | exists 6 | exists 7];
          (split; [lia | reflexivity]).
      * right. right. right. right. apply not_integer. exact Hz.
    + destruct (Z.eq_dec (Zpos m mod 2 ^ 51) 0) as [Hz | Hz].
      * left.
        pose proof (Z.div_mod (Zpos m) (2 ^ 51) ltac:(lia)) as Hq.
        rewrite Hz in Hq.
        change (2 ^ 51)%Z with 2251799813685248%Z in Hq.
        assert (Hc : (Zpos m / 2251799813685248 = 2 \/
                      Zpos m / 2251799813685248 = 3)%Z) by lia.
        destruct Hc as [Hc | Hc]; rewrite Hc in Hq;
          simpl in Hq; injection Hq as ->;
          [exists 2 | exists 3]; (split; [lia | reflexivity]).
      * right. right. right. right. apply not_integer. exact Hz.
    + destruct (Z.eq_dec (Zpos m mod 2 ^ 52) 0) as [Hz | Hz].
      * left.
        pose proof (Z.div_mod (Zpos m) (2 ^ 52) ltac:(lia)) as Hq.
        rewrite Hz in Hq.
        change (2 ^ 52)%Z with 4503599627370496%Z in Hq.
        assert (Hc : (Zpos m / 4503599627370496 = 1)%Z) by lia.
        rewrite Hc in Hq; simpl in Hq; injection Hq as ->.
        exists 1. split; [lia | reflexivity].
      * right. right. right. right. apply not_integer. exact Hz.
Qed.

(** Every index is loosely equal to one of 0, ..., 7 or is outside 0..7. *)
Lemma index_in_or_outside (v : value) :
  value_valid v ->
  (exists k, k < 8 /\ IsLooselyEqual v (Number_of_nat k) = true) \/
  outside_0_7 v.
Proof.
  destruct v as [| |b|x|s|z|id]; simpl; intros Hv; try (right; exact I).
  - left. destruct b; [exists 1 | exists 0]; (split; [lia | reflexivity]).
  - apply Number_in_or_outside, Hv.
  - apply Number_in_or_outside, Hv.
  - destruct (Z_lt_le_dec z 0) as [H0 | H0]; [right; lia |].
    destruct (Z_lt_le_dec 7 z) as [H7 | H7]; [right; lia |].
    left. exists (Z.to_nat z). split; [lia |].
    rewrite BigInt_equal_nat by lia. apply Z.eqb_eq. lia.
Qed.

End NumberFacts.

(** ** What a call writes *)

Section MenuFacts.
Import JS Template Reading.

(** The state a call enters its loop in. *)
Lemma menu_state_unfold (idx : value) (rp : option string) (d : document) :
  menu_state idx rp d
  = write ul_close
      (for_loop 9 (mkState idx (prefix_of rp) pages_literal titles_literal 0
                           (d ++ [ul_open]))).
Proof. reflexivity. Qed.

(** The loop of a call stops on its condition, with [i] at the length of
    the table. *)
Lemma menu_state_i (idx : value) (rp : option string) (d : document) :
  i (menu_state idx rp d) = 8 /\
  (i (menu_state idx rp d) <? List.length (pages (menu_state idx rp d)))%nat
  = false.
Proof.
  rewrite menu_state_unfold.
  set (st := mkState idx (prefix_of rp) pages_literal titles_literal 0
                     (d ++ [ul_open])).
  destruct (for_loop_rows 9 st) as [Hi _];
    [cbn [st pages i pages_literal List.length]; lia
    | cbn [st pages i]; lia |].
  destruct (for_loop_frame 9 st) as (_ & _ & Hp & _).
  cbn [write i pages]. rewrite Hp, Hi. split; reflexivity.
Qed.

(** A call appends the opening of the list, the eight rows in the order of
    the table, and the closing of the list. *)
Lemma menu_rows (idx : value) (rp : option string) (d : document) :
  menu idx rp d
  = d ++ ul_open :: map (menu_row idx rp) (seq 0 8) ++ [ul_close].
Proof.
  unfold menu. rewrite menu_state_unfold.
  set (st := mkState idx (prefix_of rp) pages_literal titles_literal 0
                     (d ++ [ul_open])).
  destruct (for_loop_rows 9 st) as [_ Hd];
    [cbn [st pages i pages_literal List.length]; lia
    | cbn [st pages i]; lia |].
  cbn [write doc]. unfold document_write. rewrite Hd.
  cbn [st doc pages i]. rewrite <- !app_assoc. reflexivity.
Qed.

Lemma menu_output_rows (idx : value) (rp : option string) :
  menu_output idx rp
  = ul_open :: map (menu_row idx rp) (seq 0 8) ++ [ul_close].
Proof. unfold menu_output. rewrite menu_rows. reflexivity. Qed.

Lemma no_gt_title (k : nat) : no_gt (element titles_literal k) = true.
Proof.
  destruct k as [|[|[|[|[|[|[|[|k]]]]]]]]; try reflexivity.
  unfold element; simpl. destruct k; reflexivity.
Qed.

Lemma read_item_menu_row (idx : value) (rp : option string) (k : nat) :
  read_item (menu_row idx rp k) = Some (menu_entry idx rp k).
Proof. apply read_item_list_item, no_gt_title. Qed.

Lemma items_menu_rows (idx : value) (rp : option string) (l : list nat) :
  items (map (menu_row idx rp) l) = map (menu_entry idx rp) l.
Proof.
  induction l as [|k l IH]; simpl; [reflexivity |].
  rewrite read_item_menu_row, IH. reflexivity.
Qed.

(** The list items of an output are the eight rows of the table. *)
Lemma items_menu_output (idx : value) (rp : option string) :
  items (menu_output idx rp) = map (menu_entry idx rp) (seq 0 8).
Proof.
  rewrite menu_output_rows.
  change (ul_open :: ?l) with ([ul_open] ++ l).
  rewrite !items_app, items_menu_rows. simpl. reflexivity.
Qed.

Lemma active_from_entries (idx : value) (rp : option string) (n m : nat) :
  active_from n (map (menu_entry idx rp) (seq n m))
  = filter (fun k => IsLooselyEqual idx (Number_of_nat k)) (seq n m).
Proof.
  revert n; induction m as [|m IH]; intros n; simpl; [reflexivity |].
  unfold is_active at 1. simpl.
  destruct (IsLooselyEqual idx (Number_of_nat n)); rewrite IH; reflexivity.
Qed.

(** The active positions of an output are the positions that [index] is
    loosely equal to. *)
Lemma active_positions_menu (idx : value) (rp : option string) :
  active_positions (menu_output idx rp)
  = filter (fun k => IsLooselyEqual idx (Number_of_nat k)) (seq 0 8).
Proof.
  unfold active_positions. rewrite items_menu_output. apply active_from_entries.
Qed.

Lemma filter_none {A : Type} (f : A -> bool) (l : list A) :
  (forall x, In x l -> f x = false) -> filter f l = [].
Proof.
  induction l as [|x l IH]; intros H; simpl; [reflexivity |].
  rewrite (H x (or_introl eq_refl)). apply IH.
  intros y Hy. apply H. now right.
Qed.

End MenuFacts.

Section OutputFacts.
Import JS Template Reading.

Lemma nth_error_menu_output (idx : value) (rp : option string) (k : nat) :
  k < 8 -> nth_error (menu_output idx rp) (S k) = Some (menu_row idx rp k).
Proof.
  intros Hk. rewrite menu_output_rows.
  destruct k as [|[|[|[|[|[|[|[|k]]]]]]]]; try lia; reflexivity.
Qed.

Lemma nth_error_menu_entries (idx : value) (rp : option string) (k : nat) :
  k < 8 ->
  nth_error (items (menu_output idx rp)) k = Some (menu_entry idx rp k).
Proof.
  intros Hk. rewrite items_menu_output.
  destruct k as [|[|[|[|[|[|[|[|k]]]]]]]]; try lia; reflexivity.
Qed.

Lemma rows_not_ul_open (idx : value) (rp : option string) (l : list nat) :
  filter (String.eqb ul_open) (map (menu_row idx rp) l) = [].
Proof.
  induction l as [|k l IH]; [reflexivity |].
  cbn [map filter]. unfold menu_row at 1.
  rewrite list_item_not_ul_open. exact IH.
Qed.

Lemma rows_not_ul_close (idx : value) (rp : option string) (l : list nat) :
  filter (String.eqb ul_close) (map (menu_row idx rp) l) = [].
Proof.
  induction l as [|k l IH]; [reflexivity |].
  cbn [map filter]. unfold menu_row at 1.
  rewrite list_item_not_ul_close. exact IH.
Qed.

Lemma occurrences_ul_open (idx : value) (rp : option string) :
  occurrences ul_open (menu_output idx rp) = 1.
Proof.
  unfold occurrences. rewrite menu_output_rows.
  change (ul_open :: ?l) with ([ul_open] ++ l).
  rewrite !filter_app, rows_not_ul_open. reflexivity.
Qed.

Lemma occurrences_ul_close (idx : value) (rp : option string) :
  occurrences ul_close (menu_output idx rp) = 1.
Proof.
  unfold occurrences. rewrite menu_output_rows.
  change (ul_open :: ?l) with ([ul_open] ++ l).
  rewrite !filter_app, rows_not_ul_close. reflexivity.
Qed.

Lemma menu_appends (idx : value) (rp : option string) (d : document) :
  menu idx rp d = d ++ menu_output idx rp.
Proof. rewrite menu_rows, menu_output_rows. reflexivity. Qed.

Lemma length_menu_output (idx : value) (rp : option string) :
  List.length (menu_output idx rp) = 10.
Proof.
  rewrite menu_output_rows. cbn [List.length].
  rewrite length_app, length_map, length_seq. reflexivity.
Qed.

Lemma substring_skip (a s : string) (n : nat) :
  substring (String.length a) n (a ++ s) = substring 0 n s.
Proof. induction a as [|x a IH]; simpl; [reflexivity | exact IH]. Qed.

Lemma substring_take (b c : string) :
  substring 0 (String.length b) (b ++ c) = b.
Proof.
  induction b as [|x b IH]; simpl; [destruct c; reflexivity |].
  now rewrite IH.
Qed.

Lemma substring_middle (a b c : string) :
  substring (String.length a) (String.length b) (a ++ b ++ c) = b.
Proof. rewrite substring_skip. apply substring_take. Qed.

Lemma length_append (a b : string) :
  String.length (a ++ b) = String.length a + String.length b.
Proof. induction a as [|x a IH]; simpl; [reflexivity | now rewrite IH]. Qed.

End OutputFacts.

(** ** The properties of [menu] *)

Section Claims.
Import JS Template Reading.

(** C1: for every integer index [z] from 0 to 7 and every prefix, exactly
    one list item of the output is marked active, and it is the one at
    position [z], with the page file and the title of row [z] of the
    table; for index 0 and no prefix it is "Home" with target
    "index.html". *)
Theorem C1_selected_entry_active (z : Z) (rp : option string) :
  (0 <= z <= 7)%Z ->
  let out := menu_output (VNumber (Number_of_Z z)) rp in
  active_positions out = [Z.to_nat z] /\
  List.length (filter is_active (items out)) = 1 /\
  nth_error (items out) (Z.to_nat z)
  = Some (true,
          (prefix_of rp ++ element pages_literal (Z.to_nat z))%string,
          element titles_literal (Z.to_nat z)) /\
  nth_error (items (menu_output (VNumber (Number_of_Z 0)) None)) 0
  = Some (true, "index.html", "Home").
Proof.
  intros Hz out. subst out.
  rewrite active_positions_menu, !items_menu_output.
  assert (E : (z = 0 \/ z = 1 \/ z = 2 \/ z = 3 \/ z = 4 \/ z = 5 \/ z = 6
               \/ z = 7)%Z) by lia.
  destruct E as [-> | [-> | [-> | [-> | [-> | [-> | [-> | ->]]]]]]];
    repeat split; vm_compute; reflexivity.
Qed.

Lemma C1_selected_entry_active_witness :
  (0 <= 3 <= 7)%Z /\
  active_positions (menu_output (VNumber (Number_of_Z 3)) (Some "/docs/")) = [3].
Proof.
  split; [lia |].
  apply (C1_selected_entry_active 3 (Some "/docs/")). lia.
Defined.

(** C2, as the code has it: for every index outside 0..7 (a Number that is
    none of 0, ..., 7: negative, above 7, no integer, NaN or infinite;
    [undefined]; [null]; a Symbol; a String or a BigInt whose numeric
    value is outside 0..7) all eight list items are written and none is
    marked active.  The comparison is the loose one, so a Boolean, and a
    String that converts to one of 0, ..., 7, do match. *)
Theorem C2_outside_none_active (idx : value) (rp : option string) :
  outside_0_7 idx ->
  List.length (items (menu_output idx rp)) = 8 /\
  map label (items (menu_output idx rp)) = titles_literal /\
  active_positions (menu_output idx rp) = [] /\
  filter is_active (items (menu_output idx rp)) = [].
Proof.
  intros Ho.
  assert (Ha : active_positions (menu_output idx rp) = []).
  { rewrite active_positions_menu. apply filter_none.
    intros k Hk. apply in_seq in Hk. apply outside_no_match; [exact Ho | lia]. }
  rewrite items_menu_output. repeat split; try reflexivity; try exact Ha.
  apply filter_none. intros it Hit. apply in_map_iff in Hit.
  destruct Hit as (k & <- & Hk). apply in_seq in Hk.
  unfold is_active, menu_entry; cbn [fst].
  apply outside_no_match; [exact Ho | lia].
Qed.

Lemma C2_outside_none_active_witness :
  outside_0_7 (VNumber (Number_of_Z 99)) /\
  active_positions (menu_output (VNumber (Number_of_Z 99)) None) = [].
Proof.
  assert (H : outside_0_7 (VNumber (Number_of_Z 99))).
  { right; right; left. reflexivity. }
  split; [exact H |].
  apply (C2_outside_none_active (VNumber (Number_of_Z 99)) None H).
Defined.

(** C2 as stated fails: the index [true] is no Number, and strictly equal
    to no position, yet the entry at position 1 is marked active. *)
Lemma C2_counterexample_true :
  IsStrictlyEqual (VBoolean true) (Number_of_nat 1) = false /\
  IsLooselyEqual (VBoolean true) (Number_of_nat 1) = true /\
  active_positions (menu_output (VBoolean true) None) = [1].
Proof. repeat split; vm_compute; reflexivity. Qed.

(** C3: for every index and prefix the list items come in the order of the
    table: their labels are Home, Publications, BibBase, Students,
    Projects, Teaching, Service, Awards, and their targets are the page
    files in the table's order, each after the prefix. *)
Theorem C3_table_order (idx : value) (rp : option string) :
  map label (items (menu_output idx rp))
  = ["Home"; "Publications"; "BibBase"; "Students";
     "Projects"; "Teaching"; "Service"; "Awards"] /\
  map target (items (menu_output idx rp))
  = map (fun page => (prefix_of rp ++ page)%string)
        ["index.html"; "publications.html"; "bibbase.html"; "students.html";
         "projects.html"; "teaching.html"; "service.html"; "awards.html"].
Proof. rewrite items_menu_output. split; reflexivity. Qed.

(** C4: for every index and prefix, the fragment written for row [k] reads
    as a list item whose link target is the prefix followed by
    [pages[k]]; without a prefix the target is the page file alone;
    [menu(3, "/docs/")] marks the fourth item, "Students", with target
    "/docs/students.html", and no other. *)
Theorem C4_link_target (idx : value) (rp : option string) (k : nat) :
  k < 8 ->
  (exists frag active title,
     nth_error (menu_output idx rp) (S k) = Some frag /\
     read_item frag
     = Some (active, (prefix_of rp ++ element pages_literal k)%string, title)) /\
  (exists frag active title,
     nth_error (menu_output idx None) (S k) = Some frag /\
     read_item frag = Some (active, element pages_literal k, title)) /\
  items (menu_output (VNumber (Number_of_Z 3)) (Some "/docs/"))
  = [(false, "/docs/index.html", "Home");
     (false, "/docs/publications.html", "Publications");
     (false, "/docs/bibbase.html", "BibBase");
     (true, "/docs/students.html", "Students");
     (false, "/docs/projects.html", "Projects");
     (false, "/docs/teaching.html", "Teaching");
     (false, "/docs/service.html", "Service");
     (false, "/docs/awards.html", "Awards")].
Proof.
  intros Hk. split; [| split].
  - exists (menu_row idx rp k), (IsLooselyEqual idx (Number_of_nat k)),
      (element titles_literal k).
    split; [apply nth_error_menu_output, Hk | apply read_item_menu_row].
  - exists (menu_row idx None k), (IsLooselyEqual idx (Number_of_nat k)),
      (element titles_literal k).
    split; [apply nth_error_menu_output, Hk | apply read_item_menu_row].
  - rewrite items_menu_output. vm_compute. reflexivity.
Qed.

Lemma C4_link_target_witness :
  3 < 8 /\
  exists frag active title,
    nth_error (menu_output (VNumber (Number_of_Z 3)) (Some "/docs/")) 4
    = Some frag /\
    read_item frag = Some (active, "/docs/students.html", title).
Proof.
  split; [lia |].
  apply (C4_link_target (VNumber (Number_of_Z 3)) (Some "/docs/") 3). lia.
Defined.

(** C6: the two tables have eight entries each, paired by position as in
    the table of the specification, and a call leaves both as they are:
    at every test of the loop condition and when the call returns. *)
Theorem C6_tables_fixed (idx : value) (rp : option string) (d : document)
    (fuel : nat) (st : state) :
  List.length pages_literal = 8 /\
  List.length titles_literal = 8 /\
  combine pages_literal titles_literal
  = [("index.html", "Home"); ("publications.html", "Publications");
     ("bibbase.html", "BibBase"); ("students.html", "Students");
     ("projects.html", "Projects"); ("teaching.html", "Teaching");
     ("service.html", "Service"); ("awards.html", "Awards")] /\
  pages (loop_body st) = pages st /\
  titles (loop_body st) = titles st /\
  pages (for_loop fuel st) = pages st /\
  titles (for_loop fuel st) = titles st /\
  pages (menu_state idx rp d) = pages_literal /\
  titles (menu_state idx rp d) = titles_literal.
Proof.
  destruct (for_loop_frame fuel st) as (_ & _ & Hp & Ht).
  rewrite menu_state_unfold. cbn [write pages titles].
  destruct (for_loop_frame 9 (mkState idx (prefix_of rp) pages_literal
                                      titles_literal 0 (d ++ [ul_open])))
    as (_ & _ & Hp' & Ht').
  rewrite loop_body_row.
  repeat (split; [first [reflexivity | assumption] |]). exact Ht'.
Qed.

(** C8: the comparison is the loose one: the String "3" is loosely, and
    not strictly, equal to position 3, and as an index it gives the output
    of the Number 3, with the entry at position 3 active; the Boolean
    [true] does the same for position 1. *)
Theorem C8_loose_equality (rp : option string) :
  IsLooselyEqual (VString "3") (Number_of_nat 3) = true /\
  IsStrictlyEqual (VString "3") (Number_of_nat 3) = false /\
  menu_output (VString "3") rp = menu_output (VNumber (Number_of_Z 3)) rp /\
  active_positions (menu_output (VString "3") rp) = [3] /\
  IsLooselyEqual (VBoolean true) (Number_of_nat 1) = true /\
  IsStrictlyEqual (VBoolean true) (Number_of_nat 1) = false /\
  menu_output (VBoolean true) rp = menu_output (VNumber (Number_of_Z 1)) rp /\
  active_positions (menu_output (VBoolean true) rp) = [1].
Proof.
  rewrite !active_positions_menu, !menu_output_rows.
  assert (E : forall v w,
             map (fun k => IsLooselyEqual v (Number_of_nat k)) (seq 0 8)
             = map (fun k => IsLooselyEqual w (Number_of_nat k)) (seq 0 8) ->
             map (menu_row v rp) (seq 0 8) = map (menu_row w rp) (seq 0 8)).
  { intros v w H. cbn [map seq] in *. unfold menu_row.
    injection H as -> -> -> -> -> -> -> ->. reflexivity. }
  split; [vm_compute; reflexivity |].
  split; [vm_compute; reflexivity |].
  split; [rewrite (E (VString "3") (VNumber (Number_of_Z 3)));
          [reflexivity | vm_compute; reflexivity] |].
  split; [vm_compute; reflexivity |].
  split; [vm_compute; reflexivity |].
  split; [vm_compute; reflexivity |].
  split; [rewrite (E (VBoolean true) (VNumber (Number_of_Z 1)));
          [reflexivity | vm_compute; reflexivity] |].
  vm_compute; reflexivity.
Qed.

(** C10: for every index and every String prefix, the fragment of row [k]
    is one of the two openings, which end in the [href] attribute up to
    its quote, then the prefix character for character, then the page file
    of the row, then the rest of the item: nothing of the prefix is
    escaped or changed, whatever characters it holds. *)
Theorem C10_prefix_verbatim (idx : value) (rp : string) (k : nat) :
  k < 8 ->
  exists opening before frag,
    nth_error (menu_output idx (Some rp)) (S k) = Some frag /\
    (opening = li_open \/ opening = li_active_open) /\
    opening = (before ++ href_attr)%string /\
    frag = (opening ++ rp ++ element pages_literal k ++ href_close
              ++ element titles_literal k ++ li_close)%string /\
    substring (String.length opening) (String.length rp) frag = rp /\
    substring (String.length opening + String.length rp)
              (String.length (element pages_literal k)) frag
    = element pages_literal k.
Proof.
  intros Hk.
  assert (H : forall opening,
    let frag := (opening ++ rp ++ element pages_literal k ++ href_close
                   ++ element titles_literal k ++ li_close)%string in
    substring (String.length opening) (String.length rp) frag = rp /\
    substring (String.length opening + String.length rp)
              (String.length (element pages_literal k)) frag
    = element pages_literal k).
  { intros opening frag. subst frag. split; [apply substring_middle |].
    rewrite <- length_append, <- append_assoc. apply substring_middle. }
  destruct (IsLooselyEqual idx (Number_of_nat k)) eqn:E.
  - exists li_active_open, (tab ++ tab ++ tab ++ tab ++ "<li class=" ++ quot
      ++ "active" ++ quot ++ "><a class=" ++ quot ++ "active" ++ quot
      ++ " ")%string.
    eexists. split; [apply nth_error_menu_output, Hk |].
    unfold menu_row, list_item. rewrite E. cbn [prefix_of].
    rewrite !append_assoc.
    split; [now right |]. split; [reflexivity |]. split; [reflexivity |].
    apply H.
  - exists li_open, (tab ++ tab ++ tab ++ tab ++ "<li><a ")%string.
    eexists. split; [apply nth_error_menu_output, Hk |].
    unfold menu_row, list_item. rewrite E. cbn [prefix_of].
    rewrite !append_assoc.
    split; [now left |]. split; [reflexivity |]. split; [reflexivity |].
    apply H.
Qed.

Lemma C10_prefix_verbatim_witness :
  2 < 8 /\
  exists opening before frag,
    nth_error (menu_output VUndefined (Some "a<b>/")) 3 = Some frag /\
    (opening = li_open \/ opening = li_active_open) /\
    opening = (before ++ href_attr)%string /\
    frag = (opening ++ "a<b>/" ++ element pages_literal 2 ++ href_close
              ++ element titles_literal 2 ++ li_close)%string /\
    substring (String.length opening) (String.length "a<b>/") frag = "a<b>/" /\
    substring (String.length opening + String.length "a<b>/")
              (String.length (element pages_literal 2)) frag
    = element pages_literal 2.
Proof.
  split; [lia |].
  apply (C10_prefix_verbatim VUndefined "a<b>/" 2). lia.
Defined.

End Claims.

(** ** Further properties of [menu] *)

Section IndexFacts.
Import JS Template Reading Attribute.

Lemma filter_at_most_one {A : Type} (f : A -> bool) (l : list A) :
  NoDup l ->
  (forall x y, In x l -> In y l -> f x = true -> f y = true -> x = y) ->
  List.length (filter f l) <= 1.
Proof.
  induction l as [|a l IH]; intros Hn Hu; simpl; [lia |].
  inversion Hn as [|? ? Ha Hn']; subst.
  destruct (f a) eqn:E.
  - rewrite filter_none; [simpl; lia |].
    intros x Hx. destruct (f x) eqn:Ex; [| reflexivity].
    exfalso. apply Ha.
    rewrite (Hu a x (or_introl eq_refl) (or_intror Hx) E Ex). exact Hx.
  - apply IH; [exact Hn' |].
    intros x y Hx Hy. apply Hu; now right.
Qed.

Lemma filter_single {A : Type} (f : A -> bool) (l : list A) (k : A) :
  NoDup l -> In k l -> f k = true ->
  (forall x, In x l -> f x = true -> x = k) ->
  filter f l = [k].
Proof.
  induction l as [|a l IH]; intros Hn Hk Hf Hu; [contradiction |].
  inversion Hn as [|? ? Ha Hn']; subst. simpl.
  destruct Hk as [-> | Hk].
  - rewrite Hf. f_equal. apply filter_none.
    intros x Hx. destruct (f x) eqn:Ex; [| reflexivity].
    exfalso. apply Ha. rewrite <- (Hu x (or_intror Hx) Ex). exact Hx.
  - destruct (f a) eqn:E.
    + exfalso. apply Ha. rewrite (Hu a (or_introl eq_refl) E). exact Hk.
    + apply IH; try assumption. intros x Hx. apply Hu. now right.
Qed.

(** Indices that compare alike with every position give the same output. *)
Lemma menu_output_ext (v w : value) (rp : option string) :
  (forall k, k < 8 -> IsLooselyEqual v (Number_of_nat k)
                      = IsLooselyEqual w (Number_of_nat k)) ->
  menu_output v rp = menu_output w rp.
Proof.
  intros H. rewrite !menu_output_rows. f_equal. f_equal.
  apply map_ext_in. intros k Hk. apply in_seq in Hk.
  unfold menu_row. rewrite H by lia. reflexivity.
Qed.

Lemma active_positions_match (idx : value) (rp : option string) (k : nat) :
  k < 8 -> IsLooselyEqual idx (Number_of_nat k) = true ->
  active_positions (menu_output idx rp) = [k].
Proof.
  intros Hk H. rewrite active_positions_menu.
  apply filter_single; [apply seq_NoDup | apply in_seq; lia | exact H |].
  intros j Hj Hm. apply in_seq in Hj.
  apply (IsLooselyEqual_unique idx); [lia | exact Hk | exact Hm | exact H].
Qed.

Lemma trimStart_white (s : string) :
  all_white_space s = true -> trimStart s = EmptyString.
Proof.
  induction s as [|c s IH]; simpl; [reflexivity |].
  intros H. apply andb_prop in H. destruct H as [Hc Hs].
  rewrite Hc. apply IH, Hs.
Qed.

Lemma StringToNumber_white (s : string) :
  all_white_space s = true -> StringToNumber s = S754_zero false.
Proof.
  intros H. unfold StringToNumber, trim. rewrite (trimStart_white s H).
  reflexivity.
Qed.

Lemma until_append_both (c : ascii) (a b v : string) :
  until c a = None -> until c b = None ->
  until c (a ++ b ++ String c v) = Some ((a ++ b)%string, v).
Proof.
  intros Ha Hb. rewrite <- append_assoc.
  apply until_append, until_none_append_r; assumption.
Qed.

Lemma until_first (c : ascii) (a v : string) :
  until c a = None -> until c (a ++ String c v) = Some (a, v).
Proof. apply until_append. Qed.

Lemma no_quote_page (k : nat) : until "034" (element pages_literal k) = None.
Proof.
  destruct k as [|[|[|[|[|[|[|[|k]]]]]]]]; try reflexivity.
  unfold element; simpl. destruct k; reflexivity.
Qed.

Lemma href_value_list_item (a : bool) (tg title : string) :
  href_value (list_item a tg title)
  = option_map fst (until "034" (tg ++ href_close ++ title ++ li_close)).
Proof.
  unfold href_value, list_item. destruct a.
  - rewrite strip_append. reflexivity.
  - rewrite strip_active_inactive, strip_append. reflexivity.
Qed.

Lemma all_white_space_append (a b : string) :
  all_white_space (a ++ b) = all_white_space a && all_white_space b.
Proof.
  induction a as [|c a IH]; simpl; [reflexivity |].
  rewrite IH, andb_assoc. reflexivity.
Qed.

Lemma all_white_space_reverse (s : string) :
  all_white_space s = true -> all_white_space (reverse s) = true.
Proof.
  induction s as [|c s IH]; [reflexivity |].
  intros H. simpl in H. apply andb_prop in H. destruct H as [Hc Hs].
  change (String c s) with (String c EmptyString ++ s)%string.
  rewrite reverse_append, all_white_space_append, (IH Hs).
  unfold reverse. simpl. rewrite Hc. reflexivity.
Qed.

Lemma trimStart_after_white (l s : string) :
  all_white_space l = true -> trimStart (l ++ s) = trimStart s.
Proof.
  induction l as [|c l IH]; simpl; [reflexivity |].
  intros H. apply andb_prop in H. destruct H as [Hc Hl].
  rewrite Hc. apply IH, Hl.
Qed.

Lemma trimEnd_before_white (s r : string) :
  all_white_space r = true -> trimEnd (s ++ r) = trimEnd s.
Proof.
  intros H. unfold trimEnd. fold (reverse (s ++ r)). fold (reverse s).
  rewrite reverse_append, trimStart_after_white;
    [reflexivity | apply all_white_space_reverse, H].
Qed.

Lemma trim_padded (l s r : string) :
  all_white_space l = true -> all_white_space r = true ->
  trim (l ++ s ++ r) = trim s.
Proof.
  intros Hl Hr. unfold trim. rewrite (trimStart_after_white l _ Hl).
  induction s as [|c s IH]; simpl.
  - rewrite (trimStart_white r Hr). reflexivity.
  - destruct (isStrWhiteSpaceChar c); [exact IH |].
    apply (trimEnd_before_white (String c s) r Hr).
Qed.

End IndexFacts.

Section Extras.
Import JS Template Reading Attribute.

Lemma href_close_append (s : string) :
  (href_close ++ s)%string = String "034" (String ">" s).
Proof. reflexivity. Qed.

(** X1: whatever the index and the prefix, at most one list item of the
    output is marked active, and an active position is a position of the
    table. *)
Theorem X1_at_most_one_active (idx : value) (rp : option string) :
  List.length (active_positions (menu_output idx rp)) <= 1 /\
  (forall k, In k (active_positions (menu_output idx rp)) ->
             k < 8 /\ IsLooselyEqual idx (Number_of_nat k) = true).
Proof.
  rewrite active_positions_menu. split.
  - apply filter_at_most_one; [apply seq_NoDup |].
    intros j k Hj Hk. apply in_seq in Hj, Hk.
    apply IsLooselyEqual_unique; lia.
  - intros k Hk. apply filter_In in Hk. destruct Hk as [Hk Hm].
    apply in_seq in Hk. split; [lia | exact Hm].
Qed.

(** X2: for a position [k] of the table, the index is loosely equal to [k]
    exactly when the output has the item at position [k], and no other,
    marked active. *)
Theorem X2_active_iff_loosely_equal (idx : value) (rp : option string)
    (k : nat) :
  k < 8 ->
  (IsLooselyEqual idx (Number_of_nat k) = true <->
   active_positions (menu_output idx rp) = [k]).
Proof.
  intros Hk. split.
  - apply active_positions_match, Hk.
  - intros H. rewrite active_positions_menu in H.
    assert (Hin : In k (filter (fun j => IsLooselyEqual idx (Number_of_nat j))
                               (seq 0 8))) by (rewrite H; now left).
    apply filter_In in Hin. apply Hin.
Qed.

Lemma X2_active_iff_loosely_equal_witness :
  0 < 8 /\
  (IsLooselyEqual (VNumber (S754_zero true)) (Number_of_nat 0) = true <->
   active_positions (menu_output (VNumber (S754_zero true)) None) = [0]).
Proof.
  split; [lia |].
  apply (X2_active_iff_loosely_equal (VNumber (S754_zero true)) None 0). lia.
Defined.

(** X3: from any state with [i] within the table, the loop stops on its
    condition with [i] at [pages.length], having written one fragment for
    each row from [i] on and left the document before them as it was; and
    further tests of the condition change nothing. *)
Theorem X3_loop_runs_to_table_end (fuel fuel' : nat) (st : state) :
  i st <= List.length (pages st) ->
  List.length (pages st) - i st < fuel ->
  List.length (pages st) - i st < fuel' ->
  i (for_loop fuel st) = List.length (pages st) /\
  (i (for_loop fuel st) <? List.length (pages (for_loop fuel st)))%nat = false /\
  (exists written,
     doc (for_loop fuel st) = doc st ++ written /\
     List.length written = List.length (pages st) - i st) /\
  for_loop fuel' st = for_loop fuel st.
Proof.
  intros Hi Hf Hf'.
  destruct (for_loop_rows fuel st Hf Hi) as [Hn Hd].
  destruct (for_loop_frame fuel st) as (_ & _ & Hp & _).
  split; [exact Hn |].
  split; [rewrite Hn, Hp; apply Nat.ltb_irrefl |].
  split; [| apply for_loop_fuel; assumption].
  eexists. split; [exact Hd |].
  rewrite length_map, length_seq. reflexivity.
Qed.

Lemma X3_loop_runs_to_table_end_witness :
  let st := mkState VNull "../" ["a.html"; "b.html"] ["A"] 1 ["<ul>"] in
  i st <= List.length (pages st) /\
  doc (for_loop 2 st)
  = ["<ul>"; (li_open ++ "../b.html" ++ href_close ++ "undefined"
                ++ li_close)%string] /\
  for_loop 7 st = for_loop 2 st.
Proof.
  intros st.
  assert (H1 : i st <= List.length (pages st)) by (cbn; lia).
  assert (H2 : List.length (pages st) - i st < 2) by (cbn; lia).
  assert (H3 : List.length (pages st) - i st < 7) by (cbn; lia).
  split; [exact H1 |]. split; [reflexivity |].
  apply (X3_loop_runs_to_table_end 2 7 st H1 H2 H3).
Defined.

(** X4: a String index of white space only, the empty String among them,
    converts to 0: the output is that of the index 0, with "Home" marked
    active. *)
Theorem X4_white_space_index_is_home (s : string) (rp : option string) :
  all_white_space s = true ->
  menu_output (VString s) rp = menu_output (VNumber (Number_of_Z 0)) rp /\
  active_positions (menu_output (VString s) rp) = [0] /\
  nth_error (items (menu_output (VString s) rp)) 0
  = Some (true, (prefix_of rp ++ "index.html")%string, "Home").
Proof.
  intros H.
  assert (E : menu_output (VString s) rp
              = menu_output (VNumber (Number_of_Z 0)) rp).
  { apply menu_output_ext. intros k _. cbn [IsLooselyEqual].
    rewrite (StringToNumber_white s H). reflexivity. }
  rewrite E. split; [reflexivity |]. split.
  - apply active_positions_match; [lia | reflexivity].
  - rewrite items_menu_output. reflexivity.
Qed.

Lemma X4_white_space_index_is_home_witness :
  all_white_space " " = true /\
  active_positions (menu_output (VString " ") None) = [0].
Proof.
  split; [reflexivity |].
  apply (X4_white_space_index_is_home " " None). reflexivity.
Defined.

(** X5: a BigInt index from 0 to 7 gives the output of the Number of the
    same value, with that position marked active; any other BigInt marks
    none. *)
Theorem X5_bigint_index (z : Z) (rp : option string) :
  active_positions (menu_output (VBigInt z) rp)
  = (if ((0 <=? z) && (z <=? 7))%Z then [Z.to_nat z] else []) /\
  ((0 <= z <= 7)%Z ->
   menu_output (VBigInt z) rp = menu_output (VNumber (Number_of_Z z)) rp).
Proof.
  split.
  - destruct ((0 <=? z) && (z <=? 7))%Z eqn:E.
    + apply andb_prop in E. destruct E as [E0 E7].
      apply Z.leb_le in E0, E7.
      apply active_positions_match; [lia |].
      cbn [IsLooselyEqual]. rewrite BigInt_equal_nat by lia.
      apply Z.eqb_eq. lia.
    + rewrite active_positions_menu. apply filter_none.
      intros k Hk. apply in_seq in Hk.
      cbn [IsLooselyEqual]. rewrite BigInt_equal_nat by lia.
      apply Z.eqb_neq. intros ->.
      rewrite andb_false_iff, !Z.leb_gt in E. lia.
  - intros Hz. apply menu_output_ext. intros k Hk. cbn [IsLooselyEqual].
    assert (Hc : (z = 0 \/ z = 1 \/ z = 2 \/ z = 3 \/ z = 4 \/ z = 5 \/ z = 6
                  \/ z = 7)%Z) by lia.
    rewrite BigInt_equal_nat by exact Hk.
    destruct k as [|[|[|[|[|[|[|[|k]]]]]]]]; try lia;
      destruct Hc as [-> | [-> | [-> | [-> | [-> | [-> | [-> | ->]]]]]]];
      vm_compute; reflexivity.
Qed.

Lemma X5_bigint_index_witness :
  (0 <= 5 <= 7)%Z /\
  menu_output (VBigInt 5) None = menu_output (VNumber (Number_of_Z 5)) None.
Proof.
  split; [lia |].
  apply (X5_bigint_index 5 None). lia.
Defined.

(** X6: a Boolean index always marks an entry: [false] marks "Home" and
    [true] marks "Publications", as the indices 0 and 1 do. *)
Theorem X6_boolean_index (b : bool) (rp : option string) :
  menu_output (VBoolean b) rp
  = menu_output (VNumber (Number_of_Z (if b then 1 else 0))) rp /\
  active_positions (menu_output (VBoolean b) rp) = [if b then 1 else 0] /\
  nth_error (items (menu_output (VBoolean b) rp)) (if b then 1 else 0)
  = Some (true,
          (prefix_of rp ++ (if b then "publications.html" else "index.html"))%string,
          if b then "Publications" else "Home").
Proof.
  split; [apply menu_output_ext; intros k _; destruct b; reflexivity |].
  split.
  - destruct b; apply active_positions_match; solve [lia | reflexivity].
  - rewrite items_menu_output. destruct b; reflexivity.
Qed.

(** X7: when the prefix holds no double quote, the [href] attribute of the
    item of row [k], read up to its closing quote, is the prefix followed
    by the page file of the row. *)
Theorem X7_href_without_quote (idx : value) (rp : string) (k : nat) :
  k < 8 -> no_quote rp = true ->
  exists frag,
    nth_error (menu_output idx (Some rp)) (S k) = Some frag /\
    href_value frag = Some (rp ++ element pages_literal k)%string.
Proof.
  intros Hk Hq. exists (menu_row idx (Some rp) k).
  split; [apply nth_error_menu_output, Hk |].
  unfold menu_row. rewrite href_value_list_item. cbn [prefix_of].
  rewrite href_close_append, append_assoc.
  rewrite until_append_both; [reflexivity | | apply no_quote_page].
  unfold no_quote in Hq. destruct (until "034" rp); [discriminate | reflexivity].
Qed.

Lemma X7_href_without_quote_witness :
  3 < 8 /\ no_quote "/docs/" = true /\
  exists frag,
    nth_error (menu_output VUndefined (Some "/docs/")) 4 = Some frag /\
    href_value frag = Some ("/docs/" ++ element pages_literal 3)%string.
Proof.
  split; [lia |]. split; [reflexivity |].
  apply (X7_href_without_quote VUndefined "/docs/" 3); [lia | reflexivity].
Defined.

(** X8: the prefix is written without escaping: when it holds a double
    quote, the [href] attribute of every item, read up to its closing
    quote, is the part of the prefix before its first quote, and the page
    file of the row is no part of it. *)
Theorem X8_href_cut_at_quote (idx : value) (before after : string) (k : nat) :
  k < 8 -> no_quote before = true ->
  exists frag,
    nth_error (menu_output idx (Some (before ++ String "034" after)%string))
              (S k) = Some frag /\
    href_value frag = Some before.
Proof.
  intros Hk Hq. eexists.
  split; [apply nth_error_menu_output, Hk |].
  unfold menu_row. rewrite href_value_list_item. cbn [prefix_of].
  rewrite !append_assoc. cbn [append].
  rewrite until_first; [reflexivity |].
  unfold no_quote in Hq.
  destruct (until "034" before); [discriminate | reflexivity].
Qed.

Lemma X8_href_cut_at_quote_witness :
  0 < 8 /\ no_quote "x" = true /\
  exists frag,
    nth_error (menu_output VUndefined
                 (Some ("x" ++ String "034" " onclick=")%string)) 1
    = Some frag /\
    href_value frag = Some "x".
Proof.
  split; [lia |]. split; [reflexivity |].
  apply (X8_href_cut_at_quote VUndefined "x" " onclick=" 0); [lia | reflexivity].
Defined.

(** X9: for an index whose Number is a value of the format, no list item
    is marked active exactly when the index is outside 0..7. *)
Theorem X9_none_active_iff_outside (idx : value) (rp : option string) :
  value_valid idx ->
  (active_positions (menu_output idx rp) = [] <-> outside_0_7 idx).
Proof.
  intros Hv. split.
  - intros H. destruct (index_in_or_outside idx Hv) as [(k & Hk & Hm) | Ho];
      [| exact Ho].
    rewrite (active_positions_match idx rp k Hk Hm) in H. discriminate.
  - intros Ho. rewrite active_positions_menu. apply filter_none.
    intros k Hk. apply in_seq in Hk. apply outside_no_match; [exact Ho | lia].
Qed.

Lemma X9_none_active_iff_outside_witness :
  value_valid (VString "7.5") /\
  (active_positions (menu_output (VString "7.5") None) = [] <->
   outside_0_7 (VString "7.5")).
Proof.
  assert (H : value_valid (VString "7.5")) by reflexivity.
  split; [exact H |].
  apply (X9_none_active_iff_outside (VString "7.5") None H).
Defined.

(** X10: white space around a String index does not count: the index
    padded with white space on either side gives the output of the index
    without it. *)
Theorem X10_padded_string_index (l s r : string) (rp : option string) :
  all_white_space l = true -> all_white_space r = true ->
  StringToNumber (l ++ s ++ r) = StringToNumber s /\
  menu_output (VString (l ++ s ++ r)) rp = menu_output (VString s) rp.
Proof.
  intros Hl Hr.
  assert (E : StringToNumber (l ++ s ++ r) = StringToNumber s).
  { unfold StringToNumber. rewrite (trim_padded l s r Hl Hr). reflexivity. }
  split; [exact E |].
  apply menu_output_ext. intros k _. cbn [IsLooselyEqual].
  rewrite E. reflexivity.
Qed.

Lemma X10_padded_string_index_witness :
  all_white_space " " = true /\ all_white_space (String "009" " ") = true /\
  StringToNumber (" " ++ "3" ++ String "009" " ") = StringToNumber "3" /\
  menu_output (VString (" " ++ "3" ++ String "009" " ")) None
  = menu_output (VString "3") None.
Proof.
  split; [reflexivity |]. split; [reflexivity |].
  apply (X10_padded_string_index " " "3" (String "009" " ") None);
    reflexivity.
Defined.

End Extras.

(** ** The call on arguments of any kind: the loop *)

Section DynamicFacts.
Import JS Template Reading Dynamic.

Lemma skipn_length_app {A : Type} (l l' : list A) :
  skipn (List.length l) (l ++ l') = l'.
Proof. induction l as [|x l IH]; simpl; [reflexivity | exact IH]. Qed.

(** On a primitive index and a String the loop is the loop of [menu]. *)
Lemma for_loop_any_typed (fuel : nat) (idx : value) (s : string)
    (pgs tts : list string) (k : nat) (d : document) (ic pc : nat) :
  for_loop_any fuel (IPrimitive idx) (PString s) pgs tts k (mkWorld d ic pc)
  = (Normal,
     i (for_loop fuel (mkState idx s pgs tts k d)),
     mkWorld (doc (for_loop fuel (mkState idx s pgs tts k d))) ic pc).
Proof.
  revert k d; induction fuel as [|fuel IH]; intros k d; [reflexivity |].
  cbn [for_loop_any for_loop i pages].
  destruct (k <? List.length pgs)%nat; [| reflexivity].
  unfold loop_body_any, loop_body.
  cbn [equals_position prefix_text index i relativePath pages titles].
  destruct (IsLooselyEqual idx (Number_of_nat k));
    unfold write_world, write, set_i;
    cbn [written index_conversions prefix_conversions index relativePath
         pages titles i doc];
    apply IH.
Qed.

(** On a primitive index and a String or no prefix the call is [menu]: it
    ends normally and converts nothing. *)
Lemma menu_call_typed (idx : value) (rp : option string) (d : document)
    (ic pc : nat) :
  menu_call (IPrimitive idx) (prefix_argument_of rp) (mkWorld d ic pc)
  = (Normal, mkWorld (menu idx rp d) ic pc).
Proof.
  unfold menu_call.
  assert (E : match prefix_argument_of rp with
              | PUndefined => PString EmptyString
              | _ => prefix_argument_of rp
              end = PString (prefix_of rp)) by (destruct rp; reflexivity).
  rewrite E. unfold write_world, document_write.
  cbn [written index_conversions prefix_conversions].
  rewrite for_loop_any_typed.
  cbn [written index_conversions prefix_conversions].
  unfold menu. rewrite menu_state_unfold. reflexivity.
Qed.

Lemma call_output_typed (idx : value) (rp : option string) (w : world) :
  fst (menu_call (IPrimitive idx) (prefix_argument_of rp) w) = Normal /\
  call_output (IPrimitive idx) (prefix_argument_of rp) w = menu_output idx rp.
Proof.
  destruct w as [d ic pc]. unfold call_output.
  rewrite menu_call_typed. cbn [fst snd written].
  rewrite menu_appends, skipn_length_app. split; reflexivity.
Qed.





(** When the conversions give the same every time, the body ends the same
    way and writes the same, whatever went before. *)
Lemma loop_body_any_stateless (a : index_argument) (p : prefix_argument)
    (pgs tts : list string) (k : nat) (w1 w2 : world) :
  index_stateless a -> prefix_stateless p ->
  exists c fr w1' w2',
    loop_body_any a p pgs tts k w1 = (c, w1') /\
    loop_body_any a p pgs tts k w2 = (c, w2') /\
    written w1' = written w1 ++ fr /\
    written w2' = written w2 ++ fr.
Proof.
  intros Ha Hp. unfold loop_body_any.
  assert (Hi : exists ob u1 u2,
             equals_position a k w1 = (ob, u1) /\
             equals_position a k w2 = (ob, u2) /\
             written u1 = written w1 /\ written u2 = written w2).
  { destruct a as [v | f]; cbn [equals_position index_stateless] in *.
    - eexists _, _, _. repeat split.
    - rewrite (Ha (index_conversions w1) 0), (Ha (index_conversions w2) 0).
      eexists _, _, _. repeat split. }
  destruct Hi as (ob & u1 & u2 & -> & -> & Hu1 & Hu2).
  destruct ob as [b |];
    [| exists Throw, [], u1, u2; rewrite !app_nil_r; repeat split; assumption].
  assert (Hx : exists os v1 v2,
             prefix_text p u1 = (os, v1) /\
             prefix_text p u2 = (os, v2) /\
             written v1 = written u1 /\ written v2 = written u2).
  { destruct p as [| s | id | f]; cbn [prefix_text prefix_stateless] in *.
    - eexists _, _, _. repeat split.
    - eexists _, _, _. repeat split.
    - eexists _, _, _. repeat split.
    - rewrite (Hp (prefix_conversions u1) 0), (Hp (prefix_conversions u2) 0).
      eexists _, _, _. repeat split. }
  destruct Hx as (os & v1 & v2 & -> & -> & Hv1 & Hv2).
  destruct os as [s |];
    [| exists Throw, [], v1, v2; rewrite !app_nil_r; repeat split; congruence].
  destruct b; eexists Normal, [_], _, _;
    (split; [reflexivity |]); (split; [reflexivity |]);
    unfold write_world, document_write; cbn [written];
    rewrite Hv1, Hv2, Hu1, Hu2; split; reflexivity.
Qed.

Lemma for_loop_any_stateless (fuel : nat) (a : index_argument)
    (p : prefix_argument) (pgs tts : list string) (k : nat) (w1 w2 : world) :
  index_stateless a -> prefix_stateless p ->
  exists c k' rows w1' w2',
    for_loop_any fuel a p pgs tts k w1 = (c, k', w1') /\
    for_loop_any fuel a p pgs tts k w2 = (c, k', w2') /\
    written w1' = written w1 ++ rows /\
    written w2' = written w2 ++ rows.
Proof.
  intros Ha Hp. revert k w1 w2; induction fuel as [|fuel IH]; intros k w1 w2.
  - exists Normal, k, [], w1, w2. rewrite !app_nil_r. repeat split.
  - cbn [for_loop_any]. destruct (k <? List.length pgs)%nat.
    + destruct (loop_body_any_stateless a p pgs tts k w1 w2 Ha Hp)
        as (c & fr & u1 & u2 & -> & -> & Hu1 & Hu2).
      destruct c.
      * destruct (IH (S k) u1 u2) as (c & k' & rows & v1 & v2 & -> & -> & Hv1 & Hv2).
        exists c, k', (fr ++ rows), v1, v2.
        rewrite Hv1, Hv2, Hu1, Hu2, <- !app_assoc. repeat split.
      * exists Throw, k, fr, u1, u2. repeat split; assumption.
    + exists Normal, k, [], w1, w2. rewrite !app_nil_r. repeat split.
Qed.

Lemma menu_call_stateless (a : index_argument) (p : prefix_argument)
    (w1 w2 : world) :
  index_stateless a -> prefix_stateless p ->
  fst (menu_call a p w1) = fst (menu_call a p w2) /\
  call_output a p w1 = call_output a p w2.
Proof.
  intros Ha Hp. unfold call_output, menu_call.
  assert (Hp' : prefix_stateless match p with
                                 | PUndefined => PString EmptyString
                                 | _ => p
                                 end) by (destruct p; exact Hp || exact I).
  destruct (for_loop_any_stateless (S (List.length pages_literal)) a _
              pages_literal titles_literal 0
              (write_world ul_open w1) (write_world ul_open w2) Ha Hp')
    as (c & k' & rows & v1 & v2 & -> & -> & Hv1 & Hv2).
  unfold write_world, document_write in Hv1, Hv2. cbn [written] in Hv1, Hv2.
  destruct c; cbn [fst snd]; (split; [reflexivity |]);
    unfold write_world, document_write; cbn [written];
    rewrite Hv1, Hv2, <- !app_assoc, !skipn_length_app; reflexivity.
Qed.

End DynamicFacts.

(** ** The properties of the call on arguments of any kind *)

Section DynamicClaims.
Import JS Template Reading Dynamic.




(** C7, as the code has it: when the conversions of the index and of the
    prefix give the same every time (every primitive index, every String,
    absent or Symbol prefix, every object whose methods keep no state),
    two calls end the same way and write the same fragments, whatever the
    documents hold and whatever was converted before; on a primitive
    index and a String or absent prefix what is written is a function of
    the two alone. *)
Theorem C7_same_output_when_conversions_stateless (a : index_argument)
    (p : prefix_argument) (w1 w2 : world) :
  index_stateless a -> prefix_stateless p ->
  fst (menu_call a p w1) = fst (menu_call a p w2) /\
  call_output a p w1 = call_output a p w2 /\
  call_output a p (snd (menu_call a p w1)) = call_output a p w1 /\
  (forall idx rp,
     a = IPrimitive idx -> p = prefix_argument_of rp ->
     call_output a p w1 = menu_output idx rp).
Proof.
  intros Ha Hp.
  destruct (menu_call_stateless a p w1 w2 Ha Hp) as [Hc Ho].
  destruct (menu_call_stateless a p (snd (menu_call a p w1)) w1 Ha Hp)
    as [_ Ho'].
  split; [exact Hc |]. split; [exact Ho |]. split; [exact Ho' |].
  intros idx rp -> ->. apply call_output_typed.
Qed.

Lemma C7_same_output_when_conversions_stateless_witness :
  index_stateless (IObject (fun _ => Some (VString "3"))) /\
  prefix_stateless (PSymbol 0) /\
  fst (menu_call (IObject (fun _ => Some (VString "3"))) (PSymbol 0)
                 (world_of []))
  = fst (menu_call (IObject (fun _ => Some (VString "3"))) (PSymbol 0)
                   (mkWorld ["<p>"] 5 2)) /\
  call_output (IObject (fun _ => Some (VString "3"))) (PSymbol 0) (world_of [])
  = call_output (IObject (fun _ => Some (VString "3"))) (PSymbol 0)
                (mkWorld ["<p>"] 5 2) /\
  call_output (IObject (fun _ => Some (VString "3"))) (PSymbol 0)
    (snd (menu_call (IObject (fun _ => Some (VString "3"))) (PSymbol 0)
                    (world_of [])))
  = call_output (IObject (fun _ => Some (VString "3"))) (PSymbol 0)
                (world_of []) /\
  (forall idx rp,
     IObject (fun _ => Some (VString "3")) = IPrimitive idx ->
     PSymbol 0 = prefix_argument_of rp ->
     call_output (IObject (fun _ => Some (VString "3"))) (PSymbol 0)
                 (world_of [])
     = menu_output idx rp).
Proof.
  assert (Ha : index_stateless (IObject (fun _ => Some (VString "3"))))
    by (intros n m; reflexivity).
  split; [exact Ha |]. split; [exact I |].
  apply (C7_same_output_when_conversions_stateless
           (IObject (fun _ => Some (VString "3"))) (PSymbol 0)
           (world_of []) (mkWorld ["<p>"] 5 2) Ha I).
Defined.

(** C7 as stated fails: on an object whose [valueOf] counts its calls,
    the first call marks all eight items active and a second call with the
    same object marks none: equal arguments, different fragments. *)
Lemma C7_counterexample_counting_object :
  active_positions (call_output counting_object PUndefined (world_of []))
  = [0; 1; 2; 3; 4; 5; 6; 7] /\
  active_positions
    (call_output counting_object PUndefined
       (snd (menu_call counting_object PUndefined (world_of []))))
  = [] /\
  call_output counting_object PUndefined (world_of [])
  <> call_output counting_object PUndefined
       (snd (menu_call counting_object PUndefined (world_of []))).
Proof.
  split; [vm_compute; reflexivity |]. split; [vm_compute; reflexivity |].
  intros H. apply (f_equal active_positions) in H.
  vm_compute in H. discriminate H.
Qed.




End DynamicClaims.
